(** * Voice agent and robot tools (src/example/voiceAgent)

    A shallow embedding of the parts of [agent.py], [robot_voice_agent.py]
    and [robot_tools.py] that drive the duplex audio loop, the tool
    dispatch and the robot actuator handlers.

    Modelling conventions:
    - Python floats are modelled as rationals [Q]: a product is the exact
      product, not its binary64 rounding. The statements below about
      computed velocities and durations only use facts that rounding
      preserves (a zero factor gives zero, the sign of a product of
      non-zero numbers).
    - Python strings are Rocq strings, read as sequences of the code
      points U+0000 .. U+00FF (one [ascii] byte each); [str.lower] is
      Python's lower-casing on that range (A-Z and the Latin-1 capitals
      U+00C0 .. U+00DE other than U+00D7). Strings with code points
      above U+00FF are outside the model.
    - JSON values, as produced by [json.loads] and consumed by
      [json.dumps], are the inductive [json]; a Python dict decoded from
      JSON is an association list with distinct keys.
    - An exception raised by Python is a [Raise] value of the result type
      [res]; it carries the exception class.
    - Console output ([print]) is not modelled. *)

From Stdlib Require Import ZArith QArith Qabs Lqa Ascii String DecimalString.
From stdpp Require Import base gmap strings list.

Set Warnings "-register-all".



(* ------------------------------------------------------------------ *)
(** ** Python values and exceptions *)

Inductive json : Type :=
  | JNull
  | JBool (b : bool)
  | JNum (q : Q)
  | JStr (s : string)
  | JArr (l : list json)
  | JObj (kv : list (string * json)).

(** A Python dict with string keys, as decoded from a JSON object. *)
Definition dict := list (string * json).

Inductive exn : Type :=
  | KeyError (key : json)
  | AttributeError (attr : string)
  | TypeError (what : string)
  | ValueError (what : string)
  | OverflowError (what : string)
  | JSONDecodeError
  | LibError (what : string).

Inductive res (A : Type) : Type :=
  | Ok (a : A)
  | Raise (e : exn).
Arguments Ok {A} a.
Arguments Raise {A} e.

(** [d.get(k)] *)
Fixpoint dict_get (d : dict) (k : string) : option json :=
  match d with
  | [] => None
  | (k', v) :: d' => if String.eqb k k' then Some v else dict_get d' k
  end.

(** [d.get(k, default)] *)
Definition py_get (d : dict) (k : string) (default : json) : json :=
  match dict_get d k with Some v => v | None => default end.

(** [m.get(k, default)] on a dict literal of the source mapping strings
    to numbers. *)
Fixpoint table_get (t : list (string * Q)) (k : string) (default : Q) : Q :=
  match t with
  | [] => default
  | (k', v) :: t' => if String.eqb k k' then v else table_get t' k default
  end.

(** [str.lower] on one code point below U+0100: A-Z and the Latin-1
    capitals U+00C0 .. U+00DE except U+00D7 (multiplication sign) map to
    the code point 32 above; every other code point of the range is
    unchanged. *)
Definition ascii_lower (c : ascii) : ascii :=
  let n := nat_of_ascii c in
  if ((65 <=? n)%nat && (n <=? 90)%nat)
     || ((192 <=? n)%nat && (n <=? 222)%nat && negb (n =? 215)%nat)
  then ascii_of_nat (n + 32) else c.

Fixpoint str_lower (s : string) : string :=
  match s with
  | EmptyString => EmptyString
  | String c s' => String (ascii_lower c) (str_lower s')
  end.

(** [v.lower()]: only a [str] has the method. *)
Definition py_lower (v : json) : res string :=
  match v with
  | JStr s => Ok (str_lower s)
  | _ => Raise (AttributeError "lower")
  end.

(** [v * f] for a float [f]: numbers and booleans multiply, anything else
    raises [TypeError]. *)
Definition py_mul_float (v : json) (f : Q) : res Q :=
  match v with
  | JNum a => Ok (a * f)%Q
  | JBool b => Ok ((if b then 1 else 0) * f)%Q
  | _ => Raise (TypeError "unsupported operand type(s) for *")
  end.

(** Python truthiness of a JSON value. *)
Definition py_truthy (v : json) : bool :=
  match v with
  | JNull => false
  | JBool b => b
  | JNum q => negb (Qeq_bool q 0)
  | JStr s => negb (String.eqb s "")
  | JArr l => negb (Nat.eqb (length l) 0)
  | JObj kv => negb (Nat.eqb (length kv) 0)
  end.

(** [f"{q:.1f}"]: one decimal, half to even on the exact value. *)
Definition fmt_1f (q : Q) : string :=
  let a := Z.abs (Qnum q * 10) in
  let b := Zpos (Qden q) in
  let fl := (a / b)%Z in
  let r := (a mod b)%Z in
  let n := (if 2 * r <? b then fl
            else if b <? 2 * r then fl + 1
            else if Z.even fl then fl else fl + 1)%Z in
  let digits (z : Z) := NilZero.string_of_uint (N.to_uint (Z.to_N z)) in
  (if Qlt_le_dec q 0 then "-" else "") ++ digits (n / 10)%Z ++ "." ++ digits (n mod 10)%Z.

Example fmt_1f_sample : fmt_1f (3 # 10) = "0.3".
Proof. reflexivity. Qed.
Example fmt_1f_neg : fmt_1f (-(5 # 4)) = "-1.2".
Proof. reflexivity. Qed.

(* ------------------------------------------------------------------ *)
(** ** Robot actuator SDK boundary (booster_robotics_sdk_python)

    The SDK client is an opaque command sink: every command returns an
    integer status. The handlers are modelled as a writer of the effects
    they perform (actuator commands and [time.sleep]) combined with
    Python exceptions. *)

Record Position := { pos_x : Q; pos_y : Q; pos_z : Q }.
Record Orientation := { ori_roll : Q; ori_pitch : Q; ori_yaw : Q }.
Record Posture := { position : Position; orientation : Orientation }.

Inductive B1HandIndex := kLeftHand | kRightHand.
Inductive B1HandAction := kHandOpen | kHandClose.
Inductive RobotMode := kWalking | kDamping | kPrepare | kCustom.

Record DexterousFingerParameter :=
  { finger_seq : nat; finger_angle : Z; finger_force : Z; finger_speed : Z }.

Inductive robot_cmd : Type :=
  | Move (x y z : Q)
  | RotateHead (pitch yaw : Q)
  | MoveHandEndEffector (p : Posture) (time_ms : Z) (hand : B1HandIndex)
  | ControlDexterousHand (params : list DexterousFingerParameter) (hand : B1HandIndex)
  | WaveHand (action : B1HandAction)
  | ChangeMode (mode : RobotMode).

Inductive effect : Type :=
  | Cmd (c : robot_cmd)
  | Sleep (secs : Q).

(** A tool handler's computation: its result (or the exception it
    raises) and the effects it performed, in order. *)
Definition tool (A : Type) : Type := (res A * list effect)%type.

Global Instance tool_ret : MRet tool := fun A a => (Ok a, []).
Global Instance tool_bind : MBind tool := fun A B f m =>
  match m with
  | (Ok a, w) => let '(r, w') := f a in (r, (w ++ w')%list)
  | (Raise e, w) => (Raise e, w)
  end.

Definition of_res {A} (r : res A) : tool A := (r, []).

Module RobotTools.

Section Handlers.

(** The status the SDK client ([_robot_client]) returns for a command;
    the client is assumed registered through [set_robot_client]. *)
Variable client : robot_cmd -> Z.

Definition issue (c : robot_cmd) : tool Z := (Ok (client c), [Cmd c]).

(** [time.sleep(secs)]: the length is first converted to a signed
    64-bit count of nanoseconds, which raises [OverflowError] outside
    [-2^63, 2^63) ns (the exact product [secs * 10^9] is compared; CPython
    compares its binary64 rounding, which can only differ within a
    microsecond of the bounds); then a negative length raises
    [ValueError]. *)
Definition sleep_overflows (secs : Q) : bool :=
  Qle_bool (inject_Z (2 ^ 63)) (secs * inject_Z (10 ^ 9))
  || negb (Qle_bool (- inject_Z (2 ^ 63)) (secs * inject_Z (10 ^ 9))).

Definition sleep (secs : Q) : tool unit :=
  if sleep_overflows secs then
    (Raise (OverflowError "timestamp too large to convert to C _PyTime_t"), [])
  else if Qlt_le_dec secs 0 then (Raise (ValueError "sleep length must be non-negative"), [])
  else (Ok tt, [Sleep secs]).

Definition status_of (r : Z) : json :=
  JStr (if Z.eqb r 0 then "success" else "failed").

Definition base_speeds : list (string * Q) :=
  [("forward", 8 # 10); ("backward", -(2 # 10)); ("left", 2 # 10); ("right", -(2 # 10))].

Definition speed_multipliers : list (string * Q) :=
  [("slow", 3 # 10); ("slowly", 3 # 10); ("bit", 4 # 10); ("little", 4 # 10);
   ("normal", 1%Q); ("fast", 15 # 10); ("quickly", 15 # 10); ("lot", 15 # 10);
   ("much", 15 # 10)].

Definition duration_multipliers : list (string * Q) :=
  [("short", 3 # 10); ("briefly", 3 # 10); ("moment", 5 # 10); ("normal", 1%Q);
   ("long", 3%Q); ("long_time", 3%Q); ("extended", 3%Q); ("while", 2%Q)].

(** The velocity chosen by [move_robot]'s direction branches; [None] is
    the early [return] of the error mapping. *)
Definition move_velocity (direction speed_modifier : string) : option (Q * Q * Q) :=
  if String.eqb direction "stop" then Some (0, 0, 0)%Q
  else
    let base_speed := table_get base_speeds direction 0 in
    let speed_multiplier := table_get speed_multipliers speed_modifier 1 in
    if String.eqb direction "forward" then Some (base_speed * speed_multiplier, 0, 0)%Q
    else if String.eqb direction "backward" then Some (base_speed * speed_multiplier, 0, 0)%Q
    else if String.eqb direction "left" then Some (0, base_speed * speed_multiplier, 0)%Q
    else if String.eqb direction "right" then Some (0, base_speed * speed_multiplier, 0)%Q
    else None.

Definition move_robot (args : dict) : tool dict :=
  direction ← of_res (py_lower (py_get args "direction" (JStr "forward")));
  let distance := py_get args "distance" (JNum 1) in
  speed_modifier ← of_res (py_lower (py_get args "speed_modifier" (JStr "normal")));
  duration_modifier ← of_res (py_lower (py_get args "duration_modifier" (JStr "normal")));
  final_distance ← of_res (py_mul_float distance
                             (table_get duration_multipliers duration_modifier 1));
  match move_velocity direction speed_modifier with
  | None =>
      mret [("error", JStr ("Invalid direction: " ++ direction));
            ("message", JStr ("Unknown direction: " ++ direction))]
  | Some (x, y, z) =>
      r ← issue (Move x y z);
      sleep final_distance;;
      issue (Move 0 0 0);;
      mret [("direction", JStr direction);
            ("speed_modifier", JStr speed_modifier);
            ("duration_modifier", JStr duration_modifier);
            ("actual_speed", JNum (if negb (Qeq_bool x 0) then Qabs x else Qabs y));
            ("final_duration", JNum final_distance);
            ("status", status_of r);
            ("message", JStr ("Robot moved " ++ direction ++ " " ++ speed_modifier
                              ++ " for " ++ fmt_1f final_distance ++ "s"))]
  end.

Definition rotate_head (args : dict) : tool dict :=
  direction ← of_res (py_lower (py_get args "direction" (JStr "center")));
  let '(yaw, pitch) :=
    if String.eqb direction "left" then (785 # 1000, 0)%Q
    else if String.eqb direction "right" then (-(785 # 1000), 0)%Q
    else if String.eqb direction "up" then (0, -(3 # 10))%Q
    else if String.eqb direction "down" then (0, 1)%Q
    else (0, 0)%Q in
  r ← issue (RotateHead pitch yaw);
  mret [("direction", JStr direction);
        ("status", status_of r);
        ("message", JStr ("Robot head rotated " ++ direction))].

Definition celebration (args : dict) : tool dict :=
  let left_posture := {| position := {| pos_x := 3 # 10; pos_y := 3 # 10; pos_z := 4 # 10 |};
                         orientation := {| ori_roll := 0; ori_pitch := 0; ori_yaw := 0 |} |} in
  issue (MoveHandEndEffector left_posture 1000 kLeftHand);;
  let right_posture := {| position := {| pos_x := 3 # 10; pos_y := -(3 # 10); pos_z := 4 # 10 |};
                          orientation := {| ori_roll := 0; ori_pitch := 0; ori_yaw := 0 |} |} in
  issue (MoveHandEndEffector right_posture 1000 kRightHand);;
  sleep 1;;
  issue (Move (8 # 10) 0 0);;
  sleep 1;;
  issue (Move 0 0 0);;
  mret [("status", JStr "success");
        ("message", JStr "Celebration sequence complete!")].

Definition gesture_angles (gesture : string) : list Z :=
  if String.eqb gesture "rock" then [0; 0; 0; 0; 0; 0]%Z
  else if String.eqb gesture "scissor" then [0; 0; 1000; 1000; 0; 0]%Z
  else if String.eqb gesture "paper" then [1000; 1000; 1000; 1000; 1000; 1000]%Z
  else if String.eqb gesture "ok" then [1000; 1000; 1000; 500; 400; 350]%Z
  else [1000; 1000; 1000; 1000; 1000; 1000]%Z.

Definition finger_params (angles : list Z) : list DexterousFingerParameter :=
  imap (fun i angle =>
          {| finger_seq := if Nat.eqb i 5 then 5%nat else i; finger_angle := angle;
             finger_force := 200; finger_speed := 800 |}) angles.

Definition hand_gesture (args : dict) : tool dict :=
  gesture ← of_res (py_lower (py_get args "gesture" (JStr "paper")));
  r ← issue (ControlDexterousHand (finger_params (gesture_angles gesture)) kRightHand);
  mret [("gesture", JStr gesture);
        ("status", status_of r);
        ("message", JStr ("Hand gesture " ++ gesture ++ " performed"))].

Definition wave_hand (args : dict) : tool dict :=
  action ← of_res (py_lower (py_get args "action" (JStr "open")));
  let hand_action :=
    if String.eqb action "open" then Some kHandOpen
    else if String.eqb action "close" then Some kHandClose
    else None in
  match hand_action with
  | None =>
      mret [("error", JStr "Invalid action. Must be 'open' or 'close'");
            ("message", JStr ("Unknown wave action: " ++ action))]
  | Some a =>
      r ← issue (WaveHand a);
      mret [("action", JStr action);
            ("status", status_of r);
            ("message", JStr ("Robot waved hand (" ++ action ++ ")"))]
  end.

Definition mode_map : list (string * RobotMode) :=
  [("walking", kWalking); ("damping", kDamping); ("prepare", kPrepare); ("custom", kCustom)].

Fixpoint mode_get (t : list (string * RobotMode)) (k : string) : RobotMode :=
  match t with
  | [] => kWalking
  | (k', m) :: t' => if String.eqb k k' then m else mode_get t' k
  end.

Definition change_mode (args : dict) : tool dict :=
  mode ← of_res (py_lower (py_get args "mode" (JStr "walking")));
  r ← issue (ChangeMode (mode_get mode_map mode));
  mret [("mode", JStr mode);
        ("status", status_of r);
        ("message", JStr ("Robot mode changed to " ++ mode))].

End Handlers.

End RobotTools.

(* ------------------------------------------------------------------ *)
(** ** collections.deque, as used for the playback buffer *)

Module Deque.

(** [q.append(x)] *)
Definition append {A} (q : list A) (x : A) : list A := q ++ [x].

(** [q.popleft()]; [None] stands for the [IndexError] of an empty deque,
    which the callers rule out by testing the length first. *)
Definition popleft {A} (q : list A) : option (A * list A) :=
  match q with
  | [] => None
  | x :: q' => Some (x, q')
  end.

(** [q.clear()] *)
Definition clear {A} (q : list A) : list A := [].

(** The operations the agent performs on its [output_buffer]. *)
Inductive op (A : Type) : Type :=
  | Push (x : A)
  | Pop
  | Clear.
Arguments Push {A} x.
Arguments Pop {A}.
Arguments Clear {A}.

(** Runs a sequence of operations; returns the final contents and the
    frames popped, in the order they were popped. A [Pop] on an empty
    buffer pops nothing (the playback thread only pops a non-empty
    buffer). *)
Fixpoint run {A} (q : list A) (ops : list (op A)) : list A * list A :=
  match ops with
  | [] => (q, [])
  | Push x :: ops' => run (append q x) ops'
  | Pop :: ops' =>
      match popleft q with
      | Some (x, q') => let '(fin, out) := run q' ops' in (fin, x :: out)
      | None => run q ops'
      end
  | Clear :: ops' => run (clear q) ops'
  end.

Definition pushes {A} (ops : list (op A)) : list A :=
  omap (fun o => match o with Push x => Some x | _ => None end) ops.

Definition no_clear {A} (ops : list (op A)) : bool :=
  forallb (fun o => match o with Clear => false | _ => true end) ops.

End Deque.

(* ------------------------------------------------------------------ *)
(** ** The side effects of the agent on its devices and its socket *)

Definition bytes := list Byte.byte.

Inductive stream_kind := InputStream | OutputStream.

Inductive io_event : Type :=
  | WsSend (msg : json)           (* self.ws.send(json.dumps(msg)) *)
  | WsClose                       (* await self.ws.close() *)
  | MicRead                       (* self.input_stream.read(CHUNK, ...) *)
  | SpeakerWrite (frame : bytes)  (* self.output_stream.write(frame) *)
  | StopStream (k : stream_kind)  (* stream.stop_stream() *)
  | CloseStream (k : stream_kind) (* stream.close() *)
  | TerminateAudio                (* self.audio.terminate() *)
  | JoinPlayback.                 (* self.playback_task.join(timeout=2.0) *)

(** The frames written to the speaker, in order. *)
Definition played (evs : list io_event) : list bytes :=
  omap (fun e => match e with SpeakerWrite f => Some f | _ => None end) evs.

(* ------------------------------------------------------------------ *)
(** ** agent.py: VoiceAgent *)

Module VoiceAgent.

(** A registered tool: [func(arguments)] returns a result or raises. *)
Definition handler := json -> res json.

(** The attributes of a [VoiceAgent] instance that the loop reads and
    writes. A device or socket handle is [true] once it has been assigned
    (it is never set back to [None]); [io] records the effects on the
    devices and the socket, oldest first. *)
Record agent := mk_agent {
  is_running : bool;
  is_speaking : bool;
  output_buffer : list bytes;
  interrupt_playback : bool;
  playback_stopped : bool;
  last_speech_time : Q;
  silence_timeout : Q;
  min_speech_duration : Q;
  tools_registry : gmap string handler;
  ws : bool;
  input_stream : bool;
  output_stream : bool;
  audio : bool;
  playback_task : bool;
  io : list io_event }.

Definition set_running (b : bool) (s : agent) : agent :=
  {| is_running := b; is_speaking := is_speaking s; output_buffer := output_buffer s;
     interrupt_playback := interrupt_playback s; playback_stopped := playback_stopped s;
     last_speech_time := last_speech_time s; silence_timeout := silence_timeout s;
     min_speech_duration := min_speech_duration s; tools_registry := tools_registry s;
     ws := ws s; input_stream := input_stream s; output_stream := output_stream s;
     audio := audio s; playback_task := playback_task s; io := io s |}.

Definition set_speaking (b : bool) (s : agent) : agent :=
  {| is_running := is_running s; is_speaking := b; output_buffer := output_buffer s;
     interrupt_playback := interrupt_playback s; playback_stopped := playback_stopped s;
     last_speech_time := last_speech_time s; silence_timeout := silence_timeout s;
     min_speech_duration := min_speech_duration s; tools_registry := tools_registry s;
     ws := ws s; input_stream := input_stream s; output_stream := output_stream s;
     audio := audio s; playback_task := playback_task s; io := io s |}.

Definition set_buffer (q : list bytes) (s : agent) : agent :=
  {| is_running := is_running s; is_speaking := is_speaking s; output_buffer := q;
     interrupt_playback := interrupt_playback s; playback_stopped := playback_stopped s;
     last_speech_time := last_speech_time s; silence_timeout := silence_timeout s;
     min_speech_duration := min_speech_duration s; tools_registry := tools_registry s;
     ws := ws s; input_stream := input_stream s; output_stream := output_stream s;
     audio := audio s; playback_task := playback_task s; io := io s |}.

Definition set_interrupt (b : bool) (s : agent) : agent :=
  {| is_running := is_running s; is_speaking := is_speaking s; output_buffer := output_buffer s;
     interrupt_playback := b; playback_stopped := playback_stopped s;
     last_speech_time := last_speech_time s; silence_timeout := silence_timeout s;
     min_speech_duration := min_speech_duration s; tools_registry := tools_registry s;
     ws := ws s; input_stream := input_stream s; output_stream := output_stream s;
     audio := audio s; playback_task := playback_task s; io := io s |}.

Definition set_stopped (b : bool) (s : agent) : agent :=
  {| is_running := is_running s; is_speaking := is_speaking s; output_buffer := output_buffer s;
     interrupt_playback := interrupt_playback s; playback_stopped := b;
     last_speech_time := last_speech_time s; silence_timeout := silence_timeout s;
     min_speech_duration := min_speech_duration s; tools_registry := tools_registry s;
     ws := ws s; input_stream := input_stream s; output_stream := output_stream s;
     audio := audio s; playback_task := playback_task s; io := io s |}.

Definition set_last_speech_time (t : Q) (s : agent) : agent :=
  {| is_running := is_running s; is_speaking := is_speaking s; output_buffer := output_buffer s;
     interrupt_playback := interrupt_playback s; playback_stopped := playback_stopped s;
     last_speech_time := t; silence_timeout := silence_timeout s;
     min_speech_duration := min_speech_duration s; tools_registry := tools_registry s;
     ws := ws s; input_stream := input_stream s; output_stream := output_stream s;
     audio := audio s; playback_task := playback_task s; io := io s |}.

(** Assigns the handles opened by [connect] and [setup_audio_streams]. *)
Definition set_handles (w i o t : bool) (s : agent) : agent :=
  {| is_running := is_running s; is_speaking := is_speaking s; output_buffer := output_buffer s;
     interrupt_playback := interrupt_playback s; playback_stopped := playback_stopped s;
     last_speech_time := last_speech_time s; silence_timeout := silence_timeout s;
     min_speech_duration := min_speech_duration s; tools_registry := tools_registry s;
     ws := w; input_stream := i; output_stream := o;
     audio := audio s; playback_task := t; io := io s |}.

Definition emit_io (e : io_event) (s : agent) : agent :=
  {| is_running := is_running s; is_speaking := is_speaking s; output_buffer := output_buffer s;
     interrupt_playback := interrupt_playback s; playback_stopped := playback_stopped s;
     last_speech_time := last_speech_time s; silence_timeout := silence_timeout s;
     min_speech_duration := min_speech_duration s; tools_registry := tools_registry s;
     ws := ws s; input_stream := input_stream s; output_stream := output_stream s;
     audio := audio s; playback_task := playback_task s; io := io s ++ [e] |}.

(** [VoiceAgent.__init__] with [self.tools_registry] already merged from
    [TOOLS_REGISTRY] and [extra_tools_registry]. *)
Definition init (registry : gmap string handler) : agent :=
  {| is_running := false; is_speaking := false; output_buffer := [];
     interrupt_playback := false; playback_stopped := false;
     last_speech_time := 0; silence_timeout := 10; min_speech_duration := 1 # 2;
     tools_registry := registry;
     ws := false; input_stream := false; output_stream := false;
     audio := true; playback_task := false; io := [] |}.

(** The part of [run] before the two tasks start: [connect] (the
    session.update message it sends is not recorded),
    [setup_audio_streams], [is_running = True] and the playback thread. *)
Definition start (s : agent) : agent :=
  set_running true (set_handles true true true true s).

(** Methods that run on the event loop: state passing with exceptions;
    an exception keeps the mutations made before it, as in Python. *)
Definition st (A : Type) : Type := agent -> res A * agent.

Global Instance st_ret : MRet st := fun A a s => (Ok a, s).
Global Instance st_bind : MBind st := fun A B f m s =>
  match m s with
  | (Ok a, s') => f a s'
  | (Raise e, s') => (Raise e, s')
  end.

Definition get : st agent := fun s => (Ok s, s).
Definition modify (f : agent -> agent) : st unit := fun s => (Ok tt, f s).
Definition raise {A} (e : exn) : st A := fun s => (Raise e, s).
Definition lift {A} (r : res A) : st A := fun s => (r, s).
Definition send (msg : json) : st unit := modify (emit_io (WsSend msg)).

(** [msg_type == name] for [msg_type = data.get("type")]. *)
Definition type_is (t : option json) (name : string) : bool :=
  match t with Some (JStr s) => String.eqb s name | _ => false end.

Definition function_call_output (call_id : json) (output : string) : json :=
  JObj [("type", JStr "conversation.item.create");
        ("item", JObj [("type", JStr "function_call_output");
                       ("call_id", call_id);
                       ("output", JStr output)])].

Definition response_create : json := JObj [("type", JStr "response.create")].

Definition audio_append (audio_base64 : string) : json :=
  JObj [("type", JStr "input_audio_buffer.append"); ("audio", JStr audio_base64)].

Section Methods.

(** The library functions the agent calls: [base64.b64encode],
    [base64.b64decode], [json.dumps] and [json.loads]. *)
Variable b64encode : bytes -> string.
Variable b64decode : string -> res bytes.
Variable json_dumps : json -> string.
Variable json_loads : string -> res json.

(** [self.tools_registry[function_name]] *)
Definition registry_lookup (reg : gmap string handler) (name : json) : res handler :=
  match name with
  | JStr n => match reg !! n with Some f => Ok f | None => Raise (KeyError name) end
  | JArr _ | JObj _ => Raise (TypeError "unhashable type")
  | _ => Raise (KeyError name)
  end.

Definition execute_function (call_id function_name arguments : json) : st unit :=
  s ← get;
  func ← lift (registry_lookup (tools_registry s) function_name);
  result ← lift (func arguments);
  (* print(f"... {result.get('message', result)}") *)
  (match result with JObj _ => mret tt | _ => raise (AttributeError "get") end);;
  send (function_call_output call_id (json_dumps result));;
  send response_create.

(** [handle_message]; [now] is the value [time.time()] returns when the
    handler reads the clock. *)
Definition handle_message (now : Q) (data : json) : st unit :=
  match data with
  | JObj d =>
    let msg_type := dict_get d "type" in
    if type_is msg_type "response.audio_transcript.delta" then mret tt
    else if type_is msg_type "response.audio_transcript.done" then mret tt
    else if type_is msg_type "response.audio.delta" then
      let audio_base64 := py_get d "delta" (JStr "") in
      if py_truthy audio_base64 then
        audio_data ← lift (match audio_base64 with
                           | JStr b => b64decode b
                           | _ => Raise (TypeError "argument should be a bytes-like object or ASCII string")
                           end);
        modify (fun s => set_buffer (Deque.append (output_buffer s) audio_data) s)
      else mret tt
    else if type_is msg_type "response.created" then
      modify (fun s => set_stopped false (set_speaking true s))
    else if type_is msg_type "response.done" then
      modify (set_speaking false)
    else if type_is msg_type "input_audio_buffer.speech_started" then
      s ← get;
      if is_speaking s then modify (fun s => set_speaking false (set_interrupt true s))
      else mret tt
    else if type_is msg_type "input_audio_buffer.speech_stopped" then
      s ← get;
      let speech_duration := (now - last_speech_time s)%Q in
      if Qle_bool (min_speech_duration s) speech_duration
      then modify (set_last_speech_time now)
      else mret tt
    else if type_is msg_type "input_audio_buffer.committed" then
      (* only prints, or returns early on background noise *)
      mret tt
    else if type_is msg_type "response.function_call_arguments.done" then
      let call_id := py_get d "call_id" JNull in
      let function_name := py_get d "name" JNull in
      let arguments_str := py_get d "arguments" (JStr "{}") in
      arguments ← lift (match arguments_str with
                        | JStr a => json_loads a
                        | _ => Raise (TypeError "the JSON object must be str")
                        end);
      execute_function call_id function_name arguments
    else if type_is msg_type "error" then
      (match py_get d "error" (JObj []) with
       | JObj _ => mret tt
       | _ => raise (AttributeError "get")
       end);;
      modify (set_speaking false)
    else mret tt
  | _ => raise (AttributeError "get")
  end.

(** One message of [receive_messages]: [json.loads] then [handle_message]. *)
Definition receive_message (now : Q) (message : string) : st unit :=
  data ← lift (json_loads message);
  handle_message now data.

(** One iteration of [continuous_playback] (the playback thread), under
    [buffer_lock]; once [is_running] is false the thread has left its
    loop. *)
Definition playback_step (s : agent) : agent :=
  if negb (is_running s) then s
  else match Deque.popleft (output_buffer s) with
       | Some (audio_data, rest) =>
           if negb (interrupt_playback s)
           then emit_io (SpeakerWrite audio_data) (set_buffer rest s)
           else set_stopped true (set_interrupt false (set_buffer (Deque.clear (output_buffer s)) s))
       | None =>
           if interrupt_playback s
           then set_stopped true (set_interrupt false (set_buffer (Deque.clear (output_buffer s)) s))
           else s
       end.

(** One iteration of [send_audio]; [read] is what
    [self.input_stream.read(CHUNK, exception_on_overflow=False)] returns
    or raises. A read error is caught by the loop's [except]. *)
Definition send_step (read : res bytes) (s : agent) : agent :=
  if negb (is_running s) then s
  else if negb (is_speaking s) then
    let s := emit_io MicRead s in
    match read with
    | Ok audio_data => emit_io (WsSend (audio_append (b64encode audio_data))) s
    | Raise _ => s
    end
  else emit_io MicRead s.

(** The three activities of [run], interleaved: the receive task, the
    playback thread and the microphone task. *)
Inductive step : Type :=
  | Receive (now : Q) (message : string)
  | Playback
  | SendMic (read : res bytes).

(** Runs a schedule. [alive] is false once [receive_messages] has
    terminated by an exception; its later messages are not handled. *)
Fixpoint run_schedule (alive : bool) (s : agent) (sch : list step) : agent :=
  match sch with
  | [] => s
  | Receive now m :: sch' =>
      if alive then
        match receive_message now m s with
        | (Ok _, s') => run_schedule true s' sch'
        | (Raise _, s') => run_schedule false s' sch'
        end
      else run_schedule false s sch'
  | Playback :: sch' => run_schedule alive (playback_step s) sch'
  | SendMic r :: sch' => run_schedule alive (send_step r s) sch'
  end.

(** The frame a received message would append to [output_buffer]: the
    decoded "delta" of a "response.audio.delta" message. *)
Definition delta_frame (message : string) : list bytes :=
  match json_loads message with
  | Ok (JObj d) =>
      if type_is (dict_get d "type") "response.audio.delta" then
        let audio_base64 := py_get d "delta" (JStr "") in
        if py_truthy audio_base64 then
          match audio_base64 with
          | JStr b => match b64decode b with Ok f => [f] | Raise _ => [] end
          | _ => []
          end
        else []
      else []
  | _ => []
  end.

Definition delta_frames (sch : list step) : list bytes :=
  mjoin (map (fun st => match st with Receive _ m => delta_frame m | _ => [] end) sch).

End Methods.

(** [cleanup]; none of the handles is reset, so a second call acts on the
    same handles again. *)
Definition cleanup (s : agent) : agent :=
  let s := set_running false s in
  let s := if playback_task s then emit_io JoinPlayback s else s in
  let s := set_buffer (Deque.clear (output_buffer s)) s in
  let s := if input_stream s
           then emit_io (CloseStream InputStream) (emit_io (StopStream InputStream) s) else s in
  let s := if output_stream s
           then emit_io (CloseStream OutputStream) (emit_io (StopStream OutputStream) s) else s in
  let s := if audio s then emit_io TerminateAudio s else s in
  if ws s then emit_io WsClose s else s.

End VoiceAgent.

(** [RobotVoiceAgent.receive_audio] in robot_voice_agent.py: the loop
    over the messages of the socket, with its consecutive-error counter. *)
Module RobotVoiceAgent.

Definition max_consecutive_errors : nat := 5.

(** How the loop ends: the socket has no more messages, a
    "response.done" message broke out of it, or the error counter reached
    [max_consecutive_errors]. *)
Inductive outcome : Type :=
  | StreamEnded
  | ResponseDone
  | TooManyErrors.

Section Receive.

Variable json_loads : string -> res json.
Variable b64decode : string -> res bytes.

(** The body of the loop after [json.loads] succeeded: [Ok (Some buf)]
    continues with [buf] as [output_buffer], [Ok None] is the [break] of
    "response.done" and [Raise] goes to the loop's [except Exception]. *)
Definition process_message (data : json) (output_buffer : list bytes) : res (option (list bytes)) :=
  match data with
  | JObj d =>
    let t := dict_get d "type" in
    if VoiceAgent.type_is t "response.audio.delta" then
      (* the inner try: a missing "audio" key or a decode error is
         printed, then [continue] *)
      match dict_get d "audio" with
      | Some (JStr audio_b64) =>
          match b64decode audio_b64 with
          | Ok audio_data => Ok (Some (output_buffer ++ [audio_data]))
          | Raise _ => Ok (Some output_buffer)
          end
      | _ => Ok (Some output_buffer)
      end
    else if VoiceAgent.type_is t "response.done" then Ok None
    else if VoiceAgent.type_is t "error" then
      match py_get d "error" (JObj []) with
      | JObj _ => Ok (Some output_buffer)
      | _ => Raise (AttributeError "get")
      end
    else Ok (Some output_buffer)
  | _ => Raise (AttributeError "get")
  end.

(** The loop; returns how it ended, the messages left unread and the
    buffer. Both [except] clauses (JSON decode error and any other error)
    increment the counter and [break] once it reaches the maximum. *)
Fixpoint receive_audio (consecutive_errors : nat) (output_buffer : list bytes)
    (messages : list string) : outcome * list string * list bytes :=
  match messages with
  | [] => (StreamEnded, [], output_buffer)
  | message :: rest =>
    let on_error :=
      fun consecutive_errors : nat =>
        let consecutive_errors := S consecutive_errors in
        if Nat.leb max_consecutive_errors consecutive_errors
        then (TooManyErrors, rest, output_buffer)
        else receive_audio consecutive_errors output_buffer rest in
    match json_loads message with
    | Raise _ => on_error consecutive_errors
    | Ok data =>
        (* consecutive_errors = 0 *)
        match process_message data output_buffer with
        | Ok (Some buf) => receive_audio 0 buf rest
        | Ok None => (ResponseDone, rest, output_buffer)
        | Raise _ => on_error 0
        end
    end
  end.

End Receive.

(** [get_device_supported_rates] and [find_best_audio_devices]. *)
Section Devices.

(** [int(self.audio.get_device_info_by_index(i)['defaultSampleRate'])],
    or the exception PyAudio raises for an invalid device index. *)
Variable device_default_rate : nat -> res Z.
(** Whether [self.audio.open(...)] followed by [close()] succeeds for a
    device, a direction ([is_input]) and a rate; a failure is swallowed
    by the bare [except: continue]. *)
Variable can_open : nat -> bool -> Z -> bool.

Definition common_rates : list Z := [8000; 16000; 22050; 24000; 44100; 48000]%Z.

(** [rate in rates] for a list of ints. *)
Definition rate_in (rate : Z) (rates : list Z) : bool := existsb (Z.eqb rate) rates.

Definition get_device_supported_rates (device_index : nat) (is_input : bool) : res (list Z * Z) :=
  match device_default_rate device_index with
  | Raise e => Raise e
  | Ok default_rate =>
      let test_rates := if rate_in default_rate common_rates then common_rates
                        else common_rates ++ [default_rate] in
      Ok (List.filter (can_open device_index is_input) test_rates, default_rate)
  end.

(** The loop over the candidates of [find_best_audio_devices] for one
    direction: [Ok None] when it ends without [break]. *)
Fixpoint select_device (candidates : list nat) (is_input : bool) : res (option (nat * Z)) :=
  match candidates with
  | [] => Ok None
  | device_id :: rest =>
      match get_device_supported_rates device_id is_input with
      | Raise e => Raise e
      | Ok (supported_rates, default_rate) =>
          if rate_in 24000 supported_rates then Ok (Some (device_id, 24000%Z))
          else if rate_in default_rate supported_rates then Ok (Some (device_id, default_rate))
          else select_device rest is_input
      end
  end.

Definition output_candidates : list nat := [0; 38; 33]%nat.
Definition input_candidates : list nat := [33; 27; 0]%nat.

(** The selected (device, rate) for the output and for the input. *)
Definition find_best_audio_devices : res ((nat * Z) * (nat * Z)) :=
  match select_device output_candidates false with
  | Raise e => Raise e
  | Ok None => Raise (LibError "No working audio output device found!")
  | Ok (Some out) =>
      match select_device input_candidates true with
      | Raise e => Raise e
      | Ok None => Raise (LibError "No working audio input device found!")
      | Ok (Some inp) => Ok (out, inp)
      end
  end.

End Devices.

End RobotVoiceAgent.

Import VoiceAgent.

(** The state a step leaves untouched apart from messages on the socket. *)
Definition sends_only (s s' : agent) : Prop :=
  is_running s' = is_running s /\ output_buffer s' = output_buffer s /\
  interrupt_playback s' = interrupt_playback s /\
  exists new, io s' = io s ++ new /\ played new = [].

(** The playback-side invariant: since the io log was [base], the frames
    written to the speaker followed by those still queued (while no
    interrupt is pending) form a sublist of the frames [Q] received. *)
Definition frame_inv (base : list io_event) (Q : list bytes) (s : agent) : Prop :=
  exists new, io s = base ++ new /\
    if interrupt_playback s then played new `sublist_of` Q
    else (played new ++ output_buffer s) `sublist_of` Q.

(* ================================================================== *)
(** * Verification *)

Ltac string_cases :=
  repeat match goal with
  | |- context [String.eqb ?a ?b] =>
      let E := fresh "E" in
      destruct (String.eqb_spec a b) as [E|E]; [subst|];
      try (exfalso; congruence)
  end.


(** Claim C9 (code_bug). [celebration] discards the status of every
    actuator command it issues: with an SDK client that answers 1
    (failure) to every command, it still reports status "success". *)
Theorem celebration_reports_success_on_failed_commands :
  let '(r, effs) := RobotTools.celebration (fun _ => 1%Z) [] in
  r = Ok [("status", JStr "success"); ("message", JStr "Celebration sequence complete!")]
  /\ length (List.filter (fun e => match e with Cmd _ => true | Sleep _ => false end) effs) = 4%nat.
Proof. split; reflexivity. Qed.




(* ------------------------------------------------------------------ *)
(** ** Tool dispatch in agent.py (C1, C2) *)


Definition sample_agent : agent := start (init ∅).

Definition failing_handler : handler := fun _ => Raise (LibError "connection refused").

(** Claim C1 (counterexample). Dispatching a call whose name is not
    registered raises [KeyError] and sends nothing: no result with
    success=false is produced. *)
Lemma unregistered_tool_raises_key_error :
  execute_function (fun _ => "") (JStr "call_1") (JStr "fly") (JObj []) sample_agent
  = (Raise (KeyError (JStr "fly")), sample_agent).
Proof. reflexivity. Qed.

(** Claim C2 (counterexample). A registered handler that raises makes
    [execute_function] raise: no function_call_output message with the
    call id is sent. *)
Lemma failing_handler_sends_no_result :
  let s := set_handles true true true true
             (init (<["make_api_call" := failing_handler]> ∅)) in
  execute_function (fun _ => "") (JStr "call_1") (JStr "make_api_call") (JObj []) s
  = (Raise (LibError "connection refused"), s).
Proof. reflexivity. Qed.

Ltac st_simpl :=
  unfold mbind, mret, st_bind, st_ret, get, modify, raise, lift, send;
  cbn -[lookup].

Section Dispatch.

Variable json_dumps : json -> string.

(** Claim C1 (amended). For a name that is not a key of
    [tools_registry], [execute_function] raises [KeyError] carrying the
    name, before any message is sent and without changing the agent. *)
Theorem unregistered_tool_raises (s : agent) (call_id : json) (name : string) (arguments : json) :
  tools_registry s !! name = None ->
  execute_function json_dumps call_id (JStr name) arguments s = (Raise (KeyError (JStr name)), s).
Proof.
  intros Hnone. unfold execute_function, registry_lookup. st_simpl. rewrite Hnone. reflexivity.
Qed.

(** Claim C2 (amended). For a registered name, when the handler returns
    a mapping, exactly one function_call_output message carrying the same
    call id and the serialised result is sent, followed by one
    response.create; when the handler raises, the exception propagates
    and nothing is sent. *)
Theorem registered_tool_result (s : agent) (call_id : json) (name : string)
    (arguments : json) (f : handler) :
  tools_registry s !! name = Some f ->
  execute_function json_dumps call_id (JStr name) arguments s =
    match f arguments with
    | Ok (JObj kv) =>
        (Ok tt, emit_io (WsSend response_create)
                  (emit_io (WsSend (function_call_output call_id (json_dumps (JObj kv)))) s))
    | Ok _ => (Raise (AttributeError "get"), s)
    | Raise e => (Raise e, s)
    end.
Proof.
  intros Hf. unfold execute_function, registry_lookup. st_simpl. rewrite Hf.
  destruct (f arguments) as [[]|]; reflexivity.
Qed.

End Dispatch.

Lemma unregistered_tool_raises_witness :
  tools_registry sample_agent !! "fly" = None /\
  execute_function (fun _ => "") (JStr "call_1") (JStr "fly") (JObj []) sample_agent
  = (Raise (KeyError (JStr "fly")), sample_agent).
Proof.
  split; [reflexivity|].
  apply (unregistered_tool_raises (fun _ => "") sample_agent (JStr "call_1") "fly" (JObj [])).
  reflexivity.
Defined.

Definition ok_handler : handler := fun _ => Ok (JObj [("status", JStr "success")]).

Lemma registered_tool_result_witness :
  let s := start (init (<["move_robot" := ok_handler]> ∅)) in
  tools_registry s !! "move_robot" = Some ok_handler /\
  execute_function (fun _ => "{}") (JStr "call_1") (JStr "move_robot")
    (JObj [("direction", JStr "forward")]) s
  = (Ok tt, emit_io (WsSend response_create)
              (emit_io (WsSend (function_call_output (JStr "call_1") "{}")) s)).
Proof.
  split; [reflexivity|].
  apply (registered_tool_result (fun _ => "{}") _ (JStr "call_1") "move_robot" _ ok_handler).
  reflexivity.
Defined.

(* ------------------------------------------------------------------ *)
(** ** Speech events (C3, C4) *)

Definition speech_started_msg : json :=
  JObj [("type", JStr "input_audio_buffer.speech_started")].

Definition speech_stopped_msg : json :=
  JObj [("type", JStr "input_audio_buffer.speech_stopped")].

(** The agent while it plays a response: [is_speaking] and one frame
    waiting in [output_buffer]. *)
Definition speaking_agent : agent :=
  set_buffer [[Byte.x01; Byte.x02]] (set_speaking true sample_agent).

(** Claim C3 (counterexample). Right after the speech-started handler
    the pre-interrupt frame is still in [output_buffer]: the handler only
    raises the interrupt flag. *)
Lemma speech_started_keeps_buffer :
  output_buffer (snd (handle_message (fun _ => Ok []) (fun _ => "") (fun _ => Raise JSONDecodeError)
                        0%Q speech_started_msg speaking_agent))
  = [[Byte.x01; Byte.x02]].
Proof. reflexivity. Qed.

(** Claim C4 (code_bug). From a fresh agent, speech that starts at
    t = 100.0 s and stops at t = 100.1 s lasted 0.1 s, less than
    [min_speech_duration] = 0.5 s; the handler measures the time since
    [last_speech_time] (0) instead, takes the speech as long enough and
    records it as the last speech. *)
Theorem short_speech_is_processed :
  let h := handle_message (fun _ => Ok []) (fun _ => "") (fun _ => Raise JSONDecodeError) in
  let s1 := snd (h (100 # 1) speech_started_msg sample_agent) in
  let s2 := snd (h (1001 # 10) speech_stopped_msg s1) in
  min_speech_duration s2 = 1 # 2 /\ last_speech_time s1 = 0%Q /\
  last_speech_time s2 = 1001 # 10.
Proof. split; [|split]; reflexivity. Qed.

(* ------------------------------------------------------------------ *)
(** ** The playback buffer (C6) *)

Section DequeProps.

Context {A : Type}.

Lemma deque_run_fifo (q : list A) (ops : list (Deque.op A)) :
  Deque.no_clear ops = true ->
  let '(fin, out) := Deque.run q ops in out ++ fin = q ++ Deque.pushes ops.
Proof.
  revert q. induction ops as [|o ops IH]; intros q Hnc; simpl in *.
  - unfold Deque.pushes. simpl. by rewrite app_nil_r.
  - destruct o as [x| |]; simpl in Hnc; try discriminate.
    + specialize (IH (Deque.append q x) Hnc). unfold Deque.append in *.
      destruct (Deque.run (q ++ [x]) ops). unfold Deque.pushes in *. simpl.
      rewrite IH, <- app_assoc. reflexivity.
    + destruct q as [|x q]; simpl.
      * apply IH; exact Hnc.
      * specialize (IH q Hnc). destruct (Deque.run q ops). simpl. by rewrite IH.
Qed.

(** Claim C6. The deque operations used on [output_buffer] are FIFO:
    from any contents, the frames popped followed by those left are the
    initial frames followed by the pushed ones, in push order; [clear]
    leaves the buffer empty, and after it the buffer behaves for every
    later sequence of operations exactly as an empty one, so no pop
    returns a frame from before the clear: the frames popped after it are
    (a prefix of) the frames pushed after it. *)
Theorem playback_buffer_fifo_clear (q : list A) (ops : list (Deque.op A)) :
  Deque.no_clear ops = true ->
  (let '(fin, out) := Deque.run q ops in out ++ fin = q ++ Deque.pushes ops) /\
  Deque.clear q = [] /\
  (forall ops' : list (Deque.op A), Deque.run (Deque.clear q) ops' = Deque.run [] ops') /\
  (let '(fin, out) := Deque.run (Deque.clear q) ops in out ++ fin = Deque.pushes ops).
Proof.
  intros Hnc. split; [|split; [|split]].
  - by apply deque_run_fifo.
  - reflexivity.
  - reflexivity.
  - apply (deque_run_fifo [] ops Hnc).
Qed.

End DequeProps.

Lemma playback_buffer_fifo_clear_witness :
  Deque.no_clear [Deque.Push 1; Deque.Pop; Deque.Push 2] = true /\
  Deque.run [7; 8] [Deque.Push 1; Deque.Pop; Deque.Push 2] = ([8; 1; 2], [7]) /\
  (let '(fin, out) := Deque.run [7; 8] [Deque.Push 1; Deque.Pop; Deque.Push 2] in
   out ++ fin = [7; 8] ++ Deque.pushes [Deque.Push 1; Deque.Pop; Deque.Push 2]).
Proof.
  split; [reflexivity|]. split; [vm_compute; reflexivity|].
  exact (proj1 (playback_buffer_fifo_clear [7; 8] [Deque.Push 1; Deque.Pop; Deque.Push 2]
                  eq_refl)).
Defined.

(* ------------------------------------------------------------------ *)
(** ** Cleanup (C7) *)

(** Claim C7 (code_bug). [run] ends with [cleanup()] and [main] calls
    [cleanup()] again in its [finally]: the second call stops and closes
    both audio streams, terminates PyAudio and closes the socket a second
    time. *)
Theorem cleanup_twice_releases_twice :
  io (cleanup (cleanup sample_agent)) =
    [JoinPlayback; StopStream InputStream; CloseStream InputStream;
     StopStream OutputStream; CloseStream OutputStream; TerminateAudio; WsClose;
     JoinPlayback; StopStream InputStream; CloseStream InputStream;
     StopStream OutputStream; CloseStream OutputStream; TerminateAudio; WsClose].
Proof. reflexivity. Qed.

(* ------------------------------------------------------------------ *)
(** ** The microphone path (C8) *)

Section Microphone.

Variable b64encode : bytes -> string.

(** Claim C8. On every iteration of [send_audio] while the agent runs,
    the microphone is read once; while [is_speaking] nothing is sent,
    otherwise the frame read is sent as one input_audio_buffer.append
    message carrying its base64 encoding (a failed read sends nothing).
    The iteration does not change [is_speaking]. *)
Theorem send_audio_iteration (read : res bytes) (s : agent) :
  is_running s = true ->
  io (send_step b64encode read s) =
    io s ++ (if is_speaking s then [MicRead]
             else MicRead :: match read with
                             | Ok audio_data => [WsSend (audio_append (b64encode audio_data))]
                             | Raise _ => []
                             end)
  /\ is_speaking (send_step b64encode read s) = is_speaking s.
Proof.
  intros Hrun. unfold send_step. rewrite Hrun. simpl.
  destruct (is_speaking s) eqn:Hsp; simpl.
  - split; [reflexivity | exact Hsp].
  - destruct read as [d|e]; simpl.
    + rewrite <- app_assoc. split; [reflexivity | exact Hsp].
    + split; [reflexivity | exact Hsp].
Qed.

End Microphone.

Lemma send_audio_iteration_witness :
  is_running sample_agent = true /\
  io (send_step (fun _ => "AQI=") (Ok [Byte.x01; Byte.x02]) sample_agent) =
    [MicRead; WsSend (audio_append "AQI=")].
Proof.
  split; [reflexivity|].
  destruct (send_audio_iteration (fun _ => "AQI=") (Ok [Byte.x01; Byte.x02]) sample_agent eq_refl)
    as [Hio _].
  rewrite Hio. reflexivity.
Defined.

(* ------------------------------------------------------------------ *)
(** ** Interruption and the playback thread (C3) *)

Section Interrupt.

Variable b64encode : bytes -> string.
Variable b64decode : string -> res bytes.
Variable json_dumps : json -> string.
Variable json_loads : string -> res json.

Lemma played_app (l1 l2 : list io_event) : played (l1 ++ l2) = played l1 ++ played l2.
Proof. unfold played. apply omap_app. Qed.

Lemma sends_only_refl (s : agent) : sends_only s s.
Proof. repeat split. exists []. by rewrite app_nil_r. Qed.

Lemma execute_function_sends_only (call_id name arguments : json) (s : agent) :
  sends_only s (snd (execute_function json_dumps call_id name arguments s)).
Proof.
  unfold execute_function. st_simpl.
  destruct (registry_lookup (tools_registry s) name) as [f|e]; simpl;
    [|apply sends_only_refl].
  destruct (f arguments) as [[]|e]; simpl; try apply sends_only_refl.
  repeat split. eexists. split.
  - cbn [io emit_io]. rewrite <- app_assoc. reflexivity.
  - reflexivity.
Qed.

Ltac frame_close :=
  solve [rewrite ?app_nil_r; repeat split; try reflexivity; try (intros; assumption);
         exists []; split; [by rewrite app_nil_r | reflexivity]].

(** What handling one received message does to the playback side: the
    buffer gains exactly [delta_frame m], the interrupt flag is never
    lowered, [is_running] is kept and nothing is written to the speaker. *)
Lemma receive_message_frame (now : Q) (m : string) (s : agent) :
  let s' := snd (receive_message b64decode json_dumps json_loads now m s) in
  is_running s' = is_running s /\
  output_buffer s' = output_buffer s ++ delta_frame b64decode json_loads m /\
  (interrupt_playback s = true -> interrupt_playback s' = true) /\
  exists new, io s' = io s ++ new /\ played new = [].
Proof.
  unfold receive_message, delta_frame. st_simpl.
  destruct (json_loads m) as [data|e]; simpl; [|frame_close].
  destruct data as [|?|?|?|?|d]; simpl; try frame_close.
  unfold handle_message. st_simpl.
  destruct (dict_get d "type") as [[|?|?|t|?|?]|]; simpl; try frame_close.
  string_cases; simpl; try frame_close.
  - (* response.audio.delta *)
    destruct (py_get d "delta" (JStr "")); simpl;
      repeat (case_match; simpl); unfold Deque.append; frame_close.
  - (* input_audio_buffer.speech_started *)
    destruct (is_speaking s); simpl; frame_close.
  - (* input_audio_buffer.speech_stopped *)
    destruct (Qle_bool _ _); simpl; frame_close.
  - (* response.function_call_arguments.done: the tool dispatch only sends *)
    destruct (match py_get d "arguments" (JStr "{}") with
              | JStr a => json_loads a | _ => _ end) as [arguments|e]; simpl;
      [|frame_close].
    destruct (execute_function_sends_only (py_get d "call_id" JNull)
                (py_get d "name" JNull) arguments s) as (Hr & Hb & Hi & new & Hio & Hp).
    destruct (execute_function json_dumps _ _ arguments s) as [r s']; simpl in *.
    rewrite app_nil_r.
    split; [assumption|split; [assumption|split; [intros; congruence|exists new; split; assumption]]].
  - (* error *)
    destruct (py_get d "error" (JObj [])); simpl; frame_close.
Qed.

Lemma inv_weaken (base : list io_event) (F F2 : list bytes) (s : agent) :
  F `sublist_of` F2 -> frame_inv base F s -> frame_inv base F2 s.
Proof.
  intros HQ (new & Hio & Hs). exists new. split; [done|].
  destruct (interrupt_playback s); by etrans.
Qed.

Lemma inv_receive (base : list io_event) (F : list bytes) (now : Q) (m : string) (s : agent) :
  frame_inv base F s ->
  frame_inv base (F ++ delta_frame b64decode json_loads m)
    (snd (receive_message b64decode json_dumps json_loads now m s)).
Proof.
  intros (new & Hio & Hs).
  destruct (receive_message_frame now m s) as (_ & Hb & Hi & new' & Hio' & Hp).
  exists (new ++ new'). split; [by rewrite Hio', Hio, app_assoc|].
  rewrite played_app, Hp, app_nil_r, Hb.
  destruct (interrupt_playback s) eqn:Hs0.
  - rewrite (Hi eq_refl). by apply sublist_inserts_r.
  - match goal with |- context [if ?c then _ else _] => destruct c end.
    + apply sublist_inserts_r. etrans; [|exact Hs]. by apply sublist_inserts_r.
    + rewrite app_assoc. by apply sublist_app.
Qed.

Lemma inv_playback (base : list io_event) (F : list bytes) (s : agent) :
  frame_inv base F s -> frame_inv base F (playback_step s).
Proof.
  intros (new & Hio & Hs). unfold playback_step.
  destruct (is_running s); simpl; [|by exists new].
  destruct (Deque.popleft (output_buffer s)) as [[a rest]|] eqn:Hpop.
  - unfold Deque.popleft in Hpop.
    destruct (output_buffer s) as [|a' rest'] eqn:Hbuf; [discriminate|].
    injection Hpop as <- <-.
    destruct (interrupt_playback s) eqn:Hint; simpl.
    + exists new. simpl. split; [done|].
      unfold Deque.clear. by rewrite app_nil_r.
    + exists (new ++ [SpeakerWrite a']). simpl. split; [by rewrite Hio, app_assoc|].
      rewrite Hint, played_app. simpl. by rewrite <- app_assoc.
  - destruct (interrupt_playback s) eqn:Hint; simpl.
    + exists new. split; [done|]. simpl. by rewrite app_nil_r.
    + exists new. by rewrite Hint.
Qed.

Lemma inv_send (base : list io_event) (F : list bytes) (read : res bytes) (s : agent) :
  frame_inv base F s -> frame_inv base F (send_step b64encode read s).
Proof.
  intros (new & Hio & Hs). unfold send_step.
  destruct (is_running s); simpl; [|by exists new].
  destruct (is_speaking s); simpl; [|destruct read as [b|e]]; simpl.
  - exists (new ++ [MicRead]). simpl. rewrite Hio, <- app_assoc, played_app. simpl.
    by rewrite app_nil_r.
  - exists (new ++ [MicRead; WsSend (audio_append (b64encode b))]). simpl.
    rewrite Hio, <- !app_assoc, played_app. simpl. by rewrite app_nil_r.
  - exists (new ++ [MicRead]). simpl. rewrite Hio, <- app_assoc, played_app. simpl.
    by rewrite app_nil_r.
Qed.

Lemma inv_run (base : list io_event) (sch : list step) :
  forall (alive : bool) (F : list bytes) (s : agent),
  frame_inv base F s ->
  frame_inv base (F ++ delta_frames b64decode json_loads sch)
    (run_schedule b64encode b64decode json_dumps json_loads alive s sch).
Proof.
  induction sch as [|[now m| |r] sch IH]; intros alive F s Hinv; simpl.
  - by rewrite app_nil_r.
  - unfold delta_frames. simpl. fold (delta_frames b64decode json_loads sch).
    rewrite app_assoc. destruct alive.
    + pose proof (inv_receive base F now m s Hinv) as Hr.
      destruct (receive_message b64decode json_dumps json_loads now m s) as [[]] ; by apply IH.
    + apply IH. apply (inv_weaken _ F); [by apply sublist_inserts_r|done].
  - by apply IH, inv_playback.
  - by apply IH, inv_send.
Qed.

(** Claim C3 (amended). Handling "input_audio_buffer.speech_started"
    while [is_speaking] is true sets [is_speaking] to false and raises the
    interrupt flag but leaves [output_buffer] as it was. The next iteration
    of the playback thread (if the agent runs) empties the buffer and lowers
    the flag, and under every interleaving of the receive task, the
    playback thread and the microphone task that follows, the frames
    written to the speaker form a sublist of the "response.audio.delta"
    frames received after the interrupt: no frame queued before it is
    played. *)
Theorem speech_started_interrupts (now : Q) (d : dict) (s : agent) :
  dict_get d "type" = Some (JStr "input_audio_buffer.speech_started") ->
  is_speaking s = true ->
  let '(r, s1) := handle_message b64decode json_dumps json_loads now (JObj d) s in
  r = Ok tt /\ is_speaking s1 = false /\ interrupt_playback s1 = true /\
  output_buffer s1 = output_buffer s /\
  (is_running s1 = true ->
     output_buffer (playback_step s1) = [] /\
     interrupt_playback (playback_step s1) = false) /\
  forall (alive : bool) (sch : list step),
    exists new,
      io (run_schedule b64encode b64decode json_dumps json_loads alive s1 sch) = io s1 ++ new /\
      played new `sublist_of` delta_frames b64decode json_loads sch.
Proof.
  intros Htype Hspeaking.
  unfold handle_message. rewrite Htype. simpl. st_simpl. rewrite Hspeaking. simpl.
  split; [done|]. split; [done|]. split; [done|]. split; [done|]. split.
  - intros Hrun. unfold playback_step. simpl. rewrite Hrun. simpl.
    by destruct (Deque.popleft (output_buffer s)) as [[? ?]|].
  - intros alive sch.
    set (s1 := set_speaking false (set_interrupt true s)).
    assert (H0 : frame_inv (io s1) [] s1)
      by (exists []; split; [by rewrite app_nil_r | simpl; constructor]).
    destruct (inv_run (io s1) sch alive [] s1 H0) as (new & Hio & Hs).
    exists new. split; [done|].
    destruct (interrupt_playback _); [done|].
    etrans; [|exact Hs]. by apply sublist_inserts_r.
Qed.

End Interrupt.

Lemma speech_started_interrupts_witness :
  let b64e := fun _ : bytes => "AQI="%string in
  let b64d := fun _ : string => Ok [Byte.x01; Byte.x02] in
  let jd := fun _ : json => ""%string in
  let jl := fun _ : string => Raise JSONDecodeError in
  dict_get [("type", JStr "input_audio_buffer.speech_started")] "type"
    = Some (JStr "input_audio_buffer.speech_started") /\
  is_speaking speaking_agent = true /\
  let '(r, s1) := handle_message b64d jd jl 0%Q speech_started_msg speaking_agent in
  r = Ok tt /\ is_speaking s1 = false /\ interrupt_playback s1 = true /\
  output_buffer s1 = output_buffer speaking_agent /\
  (is_running s1 = true ->
     output_buffer (playback_step s1) = [] /\
     interrupt_playback (playback_step s1) = false) /\
  forall (alive : bool) (sch : list step),
    exists new,
      io (run_schedule b64e b64d jd jl alive s1 sch) = io s1 ++ new /\
      played new `sublist_of` delta_frames b64d jl sch.
Proof.
  intros b64e b64d jd jl.
  split; [reflexivity|]. split; [reflexivity|].
  exact (speech_started_interrupts b64e b64d jd jl 0%Q
           [("type", JStr "input_audio_buffer.speech_started")] speaking_agent
           eq_refl eq_refl).
Defined.

(* ------------------------------------------------------------------ *)
(** ** The receive loop of robot_voice_agent.py (C5) *)


Section ReceiveLoop.

Variable json_loads : string -> res json.
Variable b64decode : string -> res bytes.





End ReceiveLoop.


(* ------------------------------------------------------------------ *)
(** ** Further properties of the robot tool handlers *)

Lemma speed_multiplier_cases (k : string) :
  let m := table_get RobotTools.speed_multipliers k 1 in
  m = 3 # 10 \/ m = 4 # 10 \/ m = 1%Q \/ m = 15 # 10.
Proof.
  simpl. repeat (case_match; [tauto|]). tauto.
Qed.

Ltac tool_simpl :=
  unfold mbind, mret, tool_bind, tool_ret, of_res,
    RobotTools.issue, RobotTools.sleep, py_lower, py_mul_float; cbn -[table_get].

Lemma sleep_in_range (secs : Q) :
  (-(9223372036) <= secs < 9223372036)%Q -> RobotTools.sleep_overflows secs = false.
Proof.
  intros [H1 H2]. unfold RobotTools.sleep_overflows.
  change (inject_Z (10 ^ 9)) with (1000000000 # 1).
  change (inject_Z (2 ^ 63)) with (9223372036854775808 # 1).
  apply orb_false_iff; split.
  - apply not_true_is_false. rewrite Qle_bool_iff. lra.
  - apply negb_false_iff, Qle_bool_iff. lra.
Qed.

(** [move_robot] with a valid direction (after lower-casing), string
    modifiers, a numeric distance and a final duration in
    [0, 9223372036) seconds issues exactly the move, the sleep and the
    stop command [Move(0, 0, 0)]. The move never rotates ([z = 0]) and
    goes the requested way: forward is [x > 0, y = 0], backward
    [x < 0, y = 0], left [x = 0, y > 0], right [x = 0, y < 0], stop
    [x = y = 0]. The status reports the first Move command only. *)
Theorem move_robot_valid_direction (client : robot_cmd -> Z) (args : dict)
    (d sm dm : string) (dist : Q) :
  py_get args "direction" (JStr "forward") = JStr d ->
  py_get args "speed_modifier" (JStr "normal") = JStr sm ->
  py_get args "duration_modifier" (JStr "normal") = JStr dm ->
  py_get args "distance" (JNum 1) = JNum dist ->
  str_lower d ∈ ["forward"; "backward"; "left"; "right"; "stop"] ->
  (0 <= dist * table_get RobotTools.duration_multipliers (str_lower dm) 1 < 9223372036)%Q ->
  exists x y r,
    RobotTools.move_robot client args =
      (Ok r, [Cmd (Move x y 0);
              Sleep (dist * table_get RobotTools.duration_multipliers (str_lower dm) 1)%Q;
              Cmd (Move 0 0 0)]) /\
    dict_get r "status" = Some (RobotTools.status_of (client (Move x y 0))) /\
    (str_lower d = "forward" -> 0 < x /\ y = 0)%Q /\
    (str_lower d = "backward" -> x < 0 /\ y = 0)%Q /\
    (str_lower d = "left" -> x = 0 /\ 0 < y)%Q /\
    (str_lower d = "right" -> x = 0 /\ y < 0)%Q /\
    (str_lower d = "stop" -> x = 0 /\ y = 0)%Q.
Proof.
  intros Hd Hsm Hdm Hdist Hin Hfd.
  unfold RobotTools.move_robot. rewrite Hd, Hsm, Hdm, Hdist.
  unfold RobotTools.move_velocity.
  tool_simpl.
  remember (table_get RobotTools.duration_multipliers (str_lower dm) 1) as dmul eqn:Edm.
  remember (table_get RobotTools.speed_multipliers (str_lower sm) 1) as m eqn:Em.
  assert (Hm : m = 3 # 10 \/ m = 4 # 10 \/ m = 1%Q \/ m = 15 # 10)
    by (subst m; apply speed_multiplier_cases).
  rewrite sleep_in_range by (destruct Hfd; split; lra).
  destruct (Qlt_le_dec (dist * dmul) 0) as [Hneg|_]; [exfalso; destruct Hfd; lra|].
  remember (str_lower d) as ld eqn:Eld.
  repeat rewrite elem_of_cons in Hin. rewrite elem_of_nil in Hin.
  destruct Hin as [->|[->|[->|[->|[->|[]]]]]]; cbn.
  all: eexists _, _, _; split; [reflexivity|]; split; [reflexivity|].
  all: destruct Hm as [-> | [-> | [-> | ->]]];
       split_and!; intros Heq; try discriminate Heq; split; first [reflexivity | lra].
Qed.



(** [rotate_head] with a string direction issues exactly one RotateHead
    command, within pitch -0.3 .. 1.0 and yaw -0.785 .. 0.785; an
    unrecognised direction centres the head; the status reports the
    client's answer. *)
Theorem rotate_head_single_command (client : robot_cmd -> Z) (args : dict) (d : string) :
  py_get args "direction" (JStr "center") = JStr d ->
  exists pitch yaw r,
    RobotTools.rotate_head client args = (Ok r, [Cmd (RotateHead pitch yaw)]) /\
    dict_get r "status" = Some (RobotTools.status_of (client (RotateHead pitch yaw))) /\
    (-(3 # 10) <= pitch <= 1)%Q /\ (Qabs yaw <= 785 # 1000)%Q /\
    (str_lower d ∉ ["left"; "right"; "up"; "down"] -> pitch = 0%Q /\ yaw = 0%Q).
Proof.
  intros Hd. unfold RobotTools.rotate_head. rewrite Hd. tool_simpl.
  remember (str_lower d) as ld eqn:Eld. clear Eld.
  string_cases; cbn; eexists _, _, _; (split; [reflexivity|]); (split; [reflexivity|]).
  all: split; [split; apply Qle_bool_iff; vm_compute; reflexivity|].
  all: split; [apply Qle_bool_iff; vm_compute; reflexivity|].
  all: intros Hn; first [split; reflexivity | exfalso; apply Hn; by repeat constructor].
Qed.

Lemma rotate_head_single_command_witness :
  exists pitch yaw r,
    RobotTools.rotate_head (fun _ => 0%Z) [("direction", JStr "Sideways")]
      = (Ok r, [Cmd (RotateHead pitch yaw)]) /\
    dict_get r "status" = Some (RobotTools.status_of 0) /\
    (-(3 # 10) <= pitch <= 1)%Q /\ (Qabs yaw <= 785 # 1000)%Q /\
    pitch = 0%Q /\ yaw = 0%Q.
Proof.
  destruct (rotate_head_single_command (fun _ => 0%Z) [("direction", JStr "Sideways")]
              "Sideways" eq_refl) as (pitch & yaw & r & H1 & H2 & H3 & H4 & H5).
  exists pitch, yaw, r. split; [exact H1|]. split; [exact H2|]. split; [exact H3|].
  split; [exact H4|]. apply H5. apply (bool_decide_unpack _); vm_compute; exact I.
Defined.

(** [hand_gesture] with a string gesture issues exactly one
    ControlDexterousHand command to the right hand with six finger
    parameters numbered 0 to 5, force 200, speed 800 and angles within
    0 .. 1000; an unrecognised gesture is the paper gesture. *)
Theorem hand_gesture_six_fingers (client : robot_cmd -> Z) (args : dict) (g : string) :
  py_get args "gesture" (JStr "paper") = JStr g ->
  exists params r,
    RobotTools.hand_gesture client args =
      (Ok r, [Cmd (ControlDexterousHand params kRightHand)]) /\
    dict_get r "status" =
      Some (RobotTools.status_of (client (ControlDexterousHand params kRightHand))) /\
    map finger_seq params = [0; 1; 2; 3; 4; 5]%nat /\
    Forall (fun p => finger_force p = 200%Z /\ finger_speed p = 800%Z /\
                     (0 <= finger_angle p <= 1000)%Z) params /\
    (str_lower g ∉ ["rock"; "scissor"; "paper"; "ok"] ->
       params = RobotTools.finger_params (RobotTools.gesture_angles "paper")).
Proof.
  intros Hg. unfold RobotTools.hand_gesture. rewrite Hg. tool_simpl.
  unfold RobotTools.gesture_angles.
  remember (str_lower g) as lg eqn:Elg. clear Elg.
  string_cases; cbn; eexists _, _; (split; [reflexivity|]); (split; [reflexivity|]).
  all: split; [reflexivity|]; split; [cbn; repeat first [apply Forall_nil | apply List.Forall_cons | split | (cbn [finger_angle finger_force finger_speed]; lia)]|].
  all: try reflexivity.
  all: intros Hn; exfalso; apply Hn; by repeat constructor.
Qed.

Lemma hand_gesture_six_fingers_witness :
  exists params r,
    RobotTools.hand_gesture (fun _ => 1%Z) [("gesture", JStr "ROCK")] =
      (Ok r, [Cmd (ControlDexterousHand params kRightHand)]) /\
    dict_get r "status" = Some (JStr "failed") /\
    map finger_seq params = [0; 1; 2; 3; 4; 5]%nat.
Proof.
  destruct (hand_gesture_six_fingers (fun _ => 1%Z) [("gesture", JStr "ROCK")] "ROCK" eq_refl)
    as (params & r & H1 & H2 & H3 & _).
  exists params, r. split; [exact H1|]. split; [rewrite H2; reflexivity|exact H3].
Defined.

(** [wave_hand] with the action open or close (after lower-casing)
    issues exactly one WaveHand command with that action and reports the
    client's status. *)
Theorem wave_hand_valid_action (client : robot_cmd -> Z) (args : dict) (a : string) :
  py_get args "action" (JStr "open") = JStr a ->
  str_lower a ∈ ["open"; "close"] ->
  let act := if String.eqb (str_lower a) "open" then kHandOpen else kHandClose in
  exists r,
    RobotTools.wave_hand client args = (Ok r, [Cmd (WaveHand act)]) /\
    dict_get r "status" = Some (RobotTools.status_of (client (WaveHand act))).
Proof.
  intros Ha Hin. unfold RobotTools.wave_hand. rewrite Ha. tool_simpl.
  remember (str_lower a) as la eqn:Ela. clear Ela.
  repeat rewrite elem_of_cons in Hin. rewrite elem_of_nil in Hin.
  destruct Hin as [->|[->|[]]]; cbn; eexists; split; reflexivity.
Qed.

Lemma wave_hand_valid_action_witness :
  RobotTools.wave_hand (fun _ => 0%Z) [("action", JStr "Close")] =
    (Ok [("action", JStr "close"); ("status", JStr "success");
         ("message", JStr "Robot waved hand (close)")], [Cmd (WaveHand kHandClose)]).
Proof.
  destruct (wave_hand_valid_action (fun _ => 0%Z) [("action", JStr "Close")] "Close" eq_refl
              ltac:(by right; left)) as (r & H1 & _).
  rewrite H1. vm_compute in H1. injection H1 as <-. reflexivity.
Defined.

(** [change_mode] with a string mode issues exactly one ChangeMode
    command; an unrecognised mode selects walking. *)
Theorem change_mode_single_command (client : robot_cmd -> Z) (args : dict) (md : string) :
  py_get args "mode" (JStr "walking") = JStr md ->
  let mode := RobotTools.mode_get RobotTools.mode_map (str_lower md) in
  exists r,
    RobotTools.change_mode client args = (Ok r, [Cmd (ChangeMode mode)]) /\
    dict_get r "status" = Some (RobotTools.status_of (client (ChangeMode mode))) /\
    (str_lower md ∉ ["walking"; "damping"; "prepare"; "custom"] -> mode = kWalking).
Proof.
  intros Hm. unfold RobotTools.change_mode. rewrite Hm. tool_simpl.
  remember (str_lower md) as lm eqn:Elm. clear Elm.
  eexists. split; [reflexivity|]. split; [reflexivity|].
  intros Hn. cbn. string_cases; try reflexivity.
  all: exfalso; apply Hn; by repeat constructor.
Qed.

Lemma change_mode_single_command_witness :
  RobotTools.change_mode (fun _ => 0%Z) [("mode", JStr "Sprint")] =
    (Ok [("mode", JStr "sprint"); ("status", JStr "success");
         ("message", JStr "Robot mode changed to sprint")], [Cmd (ChangeMode kWalking)]).
Proof.
  destruct (change_mode_single_command (fun _ => 0%Z) [("mode", JStr "Sprint")] "Sprint" eq_refl)
    as (r & H1 & _ & H3).
  rewrite H1, H3; [|apply (bool_decide_unpack _); vm_compute; exact I].
  vm_compute in H1. injection H1 as <-. reflexivity.
Defined.

(** A present argument that is not a string makes [.lower()] raise
    [AttributeError] before any command is issued, in each handler that
    reads it. *)
Theorem non_string_argument_raises (client : robot_cmd -> Z) (args : dict) (v : json) :
  (forall s, v <> JStr s) ->
  (dict_get args "direction" = Some v ->
     RobotTools.move_robot client args = (Raise (AttributeError "lower"), []) /\
     RobotTools.rotate_head client args = (Raise (AttributeError "lower"), [])) /\
  (dict_get args "gesture" = Some v ->
     RobotTools.hand_gesture client args = (Raise (AttributeError "lower"), [])) /\
  (dict_get args "action" = Some v ->
     RobotTools.wave_hand client args = (Raise (AttributeError "lower"), [])) /\
  (dict_get args "mode" = Some v ->
     RobotTools.change_mode client args = (Raise (AttributeError "lower"), [])).
Proof.
  intros Hv.
  assert (Hl : py_lower v = Raise (AttributeError "lower"))
    by (destruct v; try reflexivity; exfalso; by apply (Hv s)).
  split; [|split; [|split]]; intros Hk; [split| | |];
    unfold RobotTools.move_robot, RobotTools.rotate_head, RobotTools.hand_gesture,
      RobotTools.wave_hand, RobotTools.change_mode, py_get;
    rewrite Hk; unfold mbind, tool_bind, of_res; rewrite Hl; reflexivity.
Qed.

Lemma non_string_argument_raises_witness :
  RobotTools.move_robot (fun _ => 0%Z) [("direction", JNum 3)] = (Raise (AttributeError "lower"), []) /\
  RobotTools.wave_hand (fun _ => 0%Z) [("action", JNull)] = (Raise (AttributeError "lower"), []).
Proof.
  split.
  - apply (non_string_argument_raises (fun _ => 0%Z) [("direction", JNum 3)] (JNum 3));
      [intros s; discriminate | reflexivity].
  - apply (non_string_argument_raises (fun _ => 0%Z) [("action", JNull)] JNull);
      [intros s; discriminate | reflexivity].
Defined.

(** Two "input_audio_buffer.speech_stopped" events: after one accepted
    at time [t] (which records [t] as [last_speech_time]), a second one
    at [t'] is accepted, recording [t'], exactly when [t' - t] is at
    least [min_speech_duration]; otherwise it leaves the agent unchanged.
    Neither raises. *)
Theorem speech_stopped_debounce (b64decode : string -> res bytes) (json_dumps : json -> string)
    (json_loads : string -> res json) (t t' : Q) (s : agent) :
  (min_speech_duration s <= t - last_speech_time s)%Q ->
  let h := fun now => handle_message b64decode json_dumps json_loads now speech_stopped_msg in
  let '(r1, s1) := h t s in
  let '(r2, s2) := h t' s1 in
  r1 = Ok tt /\ r2 = Ok tt /\ s1 = set_last_speech_time t s /\
  (if Qle_bool (min_speech_duration s) (t' - t) then s2 = set_last_speech_time t' s1
   else s2 = s1).
Proof.
  intros Hacc. unfold handle_message, speech_stopped_msg. simpl. st_simpl.
  apply Qle_bool_iff in Hacc. rewrite Hacc. simpl.
  destruct (Qle_bool (min_speech_duration s) (t' - t)); repeat split.
Qed.

Lemma speech_stopped_debounce_witness :
  (min_speech_duration sample_agent <= 5%Q - last_speech_time sample_agent)%Q /\
  let h := fun now => handle_message (fun _ => Ok []) (fun _ => "") (fun _ => Raise JSONDecodeError)
                                     now speech_stopped_msg in
  let '(r1, s1) := h 5%Q sample_agent in
  let '(r2, s2) := h (52 # 10) s1 in
  r1 = Ok tt /\ r2 = Ok tt /\ s1 = set_last_speech_time 5%Q sample_agent /\
  (if Qle_bool (min_speech_duration sample_agent) ((52 # 10) - 5%Q)
   then s2 = set_last_speech_time (52 # 10) s1 else s2 = s1).
Proof.
  split; [apply Qle_bool_iff; reflexivity|].
  exact (speech_stopped_debounce (fun _ => Ok []) (fun _ => "")
           (fun _ => Raise JSONDecodeError) 5%Q (52 # 10) sample_agent
           ltac:(apply Qle_bool_iff; reflexivity)).
Defined.

(** While a response is being produced the microphone frames are read
    but not sent: after "response.created" [is_speaking] is true,
    [playback_stopped] false and an iteration of [send_audio] only reads
    the microphone; after the following "response.done" [is_speaking] is
    false again and the next frame read is sent. *)
Theorem response_gates_microphone (b64encode : bytes -> string) (b64decode : string -> res bytes)
    (json_dumps : json -> string) (json_loads : string -> res json)
    (now now' : Q) (frame : bytes) (s : agent) :
  is_running s = true ->
  let h := handle_message b64decode json_dumps json_loads in
  let s1 := snd (h now (JObj [("type", JStr "response.created")]) s) in
  let s2 := snd (h now' (JObj [("type", JStr "response.done")]) s1) in
  is_speaking s1 = true /\ playback_stopped s1 = false /\
  io (send_step b64encode (Ok frame) s1) = io s1 ++ [MicRead] /\
  is_speaking s2 = false /\
  io (send_step b64encode (Ok frame) s2) =
    io s2 ++ [MicRead; WsSend (audio_append (b64encode frame))].
Proof.
  intros Hrun. unfold handle_message. simpl. st_simpl.
  unfold send_step. simpl. rewrite Hrun. simpl.
  repeat split. by rewrite <- app_assoc.
Qed.

Lemma response_gates_microphone_witness :
  is_running sample_agent = true /\
  io (send_step (fun _ => "AQI=") (Ok [Byte.x01; Byte.x02])
        (snd (handle_message (fun _ => Ok []) (fun _ => "") (fun _ => Raise JSONDecodeError)
                (1 # 2) (JObj [("type", JStr "response.done")])
                (snd (handle_message (fun _ => Ok []) (fun _ => "") (fun _ => Raise JSONDecodeError)
                        0 (JObj [("type", JStr "response.created")]) sample_agent)))))
  = [MicRead; WsSend (audio_append "AQI=")].
Proof.
  split; [reflexivity|].
  destruct (response_gates_microphone (fun _ => "AQI=") (fun _ => Ok []) (fun _ => "")
              (fun _ => Raise JSONDecodeError) 0 (1 # 2) [Byte.x01; Byte.x02] sample_agent
              eq_refl) as (_ & _ & _ & _ & H).
  refine (eq_trans H _). reflexivity.
Defined.

Section PlaybackSide.

Variable b64encode : bytes -> string.
Variable b64decode : string -> res bytes.
Variable json_dumps : json -> string.
Variable json_loads : string -> res json.

(** Handling a received message, whether it succeeds or raises, never
    writes to the speaker, never lowers the interrupt flag and never
    changes [is_running]; [output_buffer] gains exactly the decoded
    "delta" of a "response.audio.delta" message, and nothing for any
    other message. *)
Theorem receive_message_playback_effect (now : Q) (m : string) (s : agent) :
  let s' := snd (receive_message b64decode json_dumps json_loads now m s) in
  is_running s' = is_running s /\
  output_buffer s' = output_buffer s ++ delta_frame b64decode json_loads m /\
  (interrupt_playback s = true -> interrupt_playback s' = true) /\
  exists new, io s' = io s ++ new /\ played new = [].
Proof. apply receive_message_frame. Qed.

(** One step only sends on the socket, if anything. *)
Definition ws_only (s s' : agent) : Prop :=
  is_running s' = is_running s /\ exists msgs, io s' = io s ++ map WsSend msgs.

Lemma ws_only_refl (s : agent) : ws_only s s.
Proof. split; [done|]. exists []. by rewrite app_nil_r. Qed.

Lemma execute_function_ws_only (call_id name arguments : json) (s : agent) :
  ws_only s (snd (execute_function json_dumps call_id name arguments s)).
Proof.
  unfold execute_function. st_simpl.
  destruct (registry_lookup (tools_registry s) name) as [f|e]; simpl; [|apply ws_only_refl].
  destruct (f arguments) as [[]|e]; simpl; try apply ws_only_refl.
  split; [done|]. eexists [_; _]. cbn [io emit_io]. rewrite <- app_assoc. reflexivity.
Qed.

Lemma receive_message_ws_only (now : Q) (m : string) (s : agent) :
  ws_only s (snd (receive_message b64decode json_dumps json_loads now m s)).
Proof.
  unfold receive_message. st_simpl.
  destruct (json_loads m) as [data|e]; simpl; [|apply ws_only_refl].
  destruct data as [|?|?|?|?|d]; simpl; try apply ws_only_refl.
  unfold handle_message. st_simpl.
  destruct (dict_get d "type") as [[|?|?|t|?|?]|]; simpl; try apply ws_only_refl.
  string_cases; simpl; try apply ws_only_refl.
  - destruct (py_get d "delta" (JStr "")); simpl; repeat (case_match; simpl);
      try apply ws_only_refl; (split; [done|]); exists []; by rewrite app_nil_r.
  - split; [done|]. exists []. by rewrite app_nil_r.
  - split; [done|]. exists []. by rewrite app_nil_r.
  - destruct (is_speaking s); simpl; try apply ws_only_refl.
    split; [done|]. exists []. by rewrite app_nil_r.
  - destruct (Qle_bool _ _); simpl; try apply ws_only_refl.
    split; [done|]. exists []. by rewrite app_nil_r.
  - destruct (match py_get d "arguments" (JStr "{}") with
              | JStr a => json_loads a | _ => _ end) as [arguments|e]; simpl;
      [apply execute_function_ws_only|apply ws_only_refl].
  - destruct (py_get d "error" (JObj [])); simpl; try apply ws_only_refl;
      (split; [done|]); exists []; by rewrite app_nil_r.
Qed.

(** After [cleanup], under every schedule of received messages,
    playback iterations and microphone iterations, nothing is written to
    the speaker, the microphone is not read and no stream is touched
    again: the only effects left are messages sent on the socket by the
    handling of received tool calls. *)
Theorem after_cleanup_only_socket_sends (s : agent) (alive : bool) (sch : list step) :
  exists msgs,
    io (run_schedule b64encode b64decode json_dumps json_loads alive (cleanup s) sch) =
    io (cleanup s) ++ map WsSend msgs.
Proof.
  assert (Hgen : forall alive s0, is_running s0 = false ->
            exists msgs, io (run_schedule b64encode b64decode json_dumps json_loads alive s0 sch)
                         = io s0 ++ map WsSend msgs).
  { induction sch as [|[now m| |r] sch IH]; intros alive' s0 Hoff; simpl.
    - exists []. by rewrite app_nil_r.
    - destruct alive'.
      + destruct (receive_message_ws_only now m s0) as [Hr [msgs Hio]].
        destruct (receive_message b64decode json_dumps json_loads now m s0) as [[] s1];
          simpl in *; [destruct (IH true s1) as [msgs' Hio'] | destruct (IH false s1) as [msgs' Hio']];
          try congruence;
          exists (msgs ++ msgs'); rewrite Hio', Hio, map_app, app_assoc; reflexivity.
      + apply IH, Hoff.
    - unfold playback_step at 1. rewrite Hoff. apply IH, Hoff.
    - unfold send_step at 1. rewrite Hoff. apply IH, Hoff. }
  apply Hgen. unfold cleanup.
  repeat (case_match; simpl); reflexivity.
Qed.

End PlaybackSide.

(** While no interrupt is pending, as many playback iterations as there
    are queued frames write exactly those frames to the speaker, in
    order, and leave [output_buffer] empty. *)
Theorem playback_drains_in_order (s : agent) :
  is_running s = true -> interrupt_playback s = false ->
  let s' := Nat.iter (length (output_buffer s)) playback_step s in
  output_buffer s' = [] /\ io s' = io s ++ map SpeakerWrite (output_buffer s) /\
  is_running s' = true /\ interrupt_playback s' = false.
Proof.
  remember (output_buffer s) as q eqn:Eq. revert s Eq.
  induction q as [|f q IH]; intros s Eq Hrun Hint; cbv zeta.
  - simpl. rewrite app_nil_r. auto.
  - change (length (f :: q)) with (S (length q)). rewrite Nat.iter_succ_r.
    assert (Hstep : playback_step s = emit_io (SpeakerWrite f) (set_buffer q s)).
    { unfold playback_step. rewrite Hrun, Hint, <- Eq. reflexivity. }
    rewrite Hstep. destruct (IH (emit_io (SpeakerWrite f) (set_buffer q s))) as (H1 & H2 & H3 & H4);
      try done.
    split; [done|]. split; [|done].
    rewrite H2. simpl. by rewrite <- app_assoc.
Qed.

Lemma playback_drains_in_order_witness :
  is_running speaking_agent = true /\ interrupt_playback speaking_agent = false /\
  io (Nat.iter 1 playback_step speaking_agent) = [SpeakerWrite [Byte.x01; Byte.x02]].
Proof.
  split; [reflexivity|]. split; [reflexivity|].
  destruct (playback_drains_in_order speaking_agent eq_refl eq_refl) as (_ & H & _).
  exact H.
Defined.

Section ReceiveShape.

Variable json_loads : string -> res json.
Variable b64decode : string -> res bytes.

(** The receive loop of robot_voice_agent.py consumes its messages in
    order and never rewrites the playback buffer: it reads a prefix of the
    messages and leaves the rest unread, the final buffer is the initial
    one with at most one chunk appended per message read, and when the
    socket runs out of messages nothing is left unread. *)
Theorem receive_audio_prefix_append (errs : nat) (buf : list bytes) (msgs : list string) :
  let '(o, rest, buf') := RobotVoiceAgent.receive_audio json_loads b64decode errs buf msgs in
  exists read added,
    msgs = read ++ rest /\ buf' = buf ++ added /\ length added <= length read /\
    (o = RobotVoiceAgent.StreamEnded -> rest = []).
Proof.
  revert errs buf. induction msgs as [|m msgs IH]; intros errs buf; cbn [RobotVoiceAgent.receive_audio].
  - cbn. exists [], []. rewrite ?app_nil_r. split_and!; done.
  - (* the error path: [on_error] either stops or recurses *)
    assert (Herr : forall n : nat,
      let '(o, rest, buf') :=
        (if Nat.leb RobotVoiceAgent.max_consecutive_errors (S n)
         then (RobotVoiceAgent.TooManyErrors, msgs, buf)
         else RobotVoiceAgent.receive_audio json_loads b64decode (S n) buf msgs) in
      exists read added,
        m :: msgs = read ++ rest /\ buf' = buf ++ added /\ length added <= length read /\
        (o = RobotVoiceAgent.StreamEnded -> rest = [])).
    { intros n. destruct (Nat.leb _ _).
      - exists [m], []. rewrite ?app_nil_r. split_and!; [done|done|cbn; lia|discriminate].
      - specialize (IH (S n) buf).
        destruct (RobotVoiceAgent.receive_audio _ _ (S n) buf msgs) as [[o rest] buf'].
        destruct IH as (read & added & -> & -> & Hlen & Hend).
        exists (m :: read), added. split_and!; [done|done|cbn; lia|done]. }
    destruct (json_loads m) as [data|e]; [|apply Herr].
    destruct (RobotVoiceAgent.process_message b64decode data buf) as [[buf1|]|e] eqn:Hp.
    + (* [process_message] appends at most one chunk *)
      assert (Hb : exists c, buf1 = buf ++ c /\ length c <= 1).
      { unfold RobotVoiceAgent.process_message in Hp.
        repeat (case_match; simplify_eq; try discriminate);
          solve [exists []; rewrite ?app_nil_r; cbn; split; [done|lia]
                |eexists [_]; split; [done|cbn; lia]]. }
      destruct Hb as (c & -> & Hc).
      specialize (IH 0 (buf ++ c)).
      destruct (RobotVoiceAgent.receive_audio _ _ 0 (buf ++ c) msgs) as [[o rest] buf'].
      destruct IH as (read & added & -> & -> & Hlen & Hend).
      exists (m :: read), (c ++ added). rewrite app_assoc.
      split_and!; [done|done|rewrite length_app; cbn; lia|done].
    + exists [m], []. rewrite ?app_nil_r. split_and!; [done|done|cbn; lia|discriminate].
    + apply (Herr 0).
Qed.

(** In the receive loop, an audio delta whose payload is not a string
    under the "audio" key (missing, or any other JSON value) is skipped:
    nothing is added to the playback buffer and the error counter is reset.
    A "response.done" message ends the loop at once, the messages after it
    staying unread and the buffer unchanged. *)
Theorem receive_audio_skip_and_done (errs : nat) (buf : list bytes) (m : string)
    (rest : list string) (d : dict) :
  json_loads m = Ok (JObj d) ->
  ((dict_get d "type" = Some (JStr "response.audio.delta") ->
    (forall s, dict_get d "audio" <> Some (JStr s)) ->
    RobotVoiceAgent.receive_audio json_loads b64decode errs buf (m :: rest)
    = RobotVoiceAgent.receive_audio json_loads b64decode 0 buf rest) /\
   (dict_get d "type" = Some (JStr "response.done") ->
    RobotVoiceAgent.receive_audio json_loads b64decode errs buf (m :: rest)
    = (RobotVoiceAgent.ResponseDone, rest, buf))).
Proof.
  intros Hm. cbn [RobotVoiceAgent.receive_audio]. rewrite Hm.
  unfold RobotVoiceAgent.process_message. split.
  - intros Ht Ha. rewrite Ht. cbn.
    destruct (dict_get d "audio") as [[]|]; try reflexivity.
    exfalso. eapply Ha. reflexivity.
  - intros Ht. rewrite Ht. reflexivity.
Qed.

End ReceiveShape.

Section DeviceSelection.

Variable device_default_rate : nat -> res Z.
Variable can_open : nat -> bool -> Z -> bool.

Lemma rate_in_spec (r : Z) (rates : list Z) :
  RobotVoiceAgent.rate_in r rates = true <-> In r rates.
Proof.
  unfold RobotVoiceAgent.rate_in. rewrite existsb_exists. split.
  - intros (x & Hx & Heq). apply Z.eqb_eq in Heq. by subst.
  - intros Hr. exists r. split; [done|apply Z.eqb_refl].
Qed.

(** A rate among the common ones or equal to the default is in the
    supported list exactly when the device opens at it. *)
Lemma supported_rate_iff (d : nat) (b : bool) (rates : list Z) (dr r : Z) :
  RobotVoiceAgent.get_device_supported_rates device_default_rate can_open d b = Ok (rates, dr) ->
  device_default_rate d = Ok dr /\
  ((r = 24000%Z \/ r = dr) -> RobotVoiceAgent.rate_in r rates = can_open d b r).
Proof.
  unfold RobotVoiceAgent.get_device_supported_rates.
  destruct (device_default_rate d) as [dr0|e] eqn:Hd; [|discriminate].
  intros Heq. injection Heq as <- <-. split; [done|]. intros Hr.
  assert (Hin : In r (if RobotVoiceAgent.rate_in dr0 RobotVoiceAgent.common_rates
                      then RobotVoiceAgent.common_rates
                      else RobotVoiceAgent.common_rates ++ [dr0])).
  { destruct Hr as [->| ->].
    - destruct (RobotVoiceAgent.rate_in _ _); [|apply in_or_app; left]; cbn; tauto.
    - destruct (RobotVoiceAgent.rate_in dr0 _) eqn:Hc.
      + by apply rate_in_spec.
      + apply in_or_app; right; cbn; tauto. }
  destruct (can_open d b r) eqn:Hco.
  - apply rate_in_spec, filter_In. done.
  - apply not_true_is_false. rewrite rate_in_spec, filter_In. intros [_ H]. congruence.
Qed.

(** A candidate that [find_best_audio_devices] passes over: its default
    rate is known and it opens neither at 24000 Hz nor at that rate. *)
Definition rejected (b : bool) (d : nat) : Prop :=
  exists dr, device_default_rate d = Ok dr /\
    can_open d b 24000%Z = false /\ can_open d b dr = false.

Lemma select_device_none (cands : list nat) (b : bool) :
  Forall (rejected b) cands ->
  RobotVoiceAgent.select_device device_default_rate can_open cands b = Ok None.
Proof.
  induction 1 as [|d cands (dr & Hd & H24 & Hdr) _ IH]; [done|].
  cbn [RobotVoiceAgent.select_device].
  destruct (RobotVoiceAgent.get_device_supported_rates device_default_rate can_open d b)
    as [[rates dr']|e] eqn:Hg.
  - destruct (supported_rate_iff d b rates dr' 24000 Hg) as [Hd' H1].
    destruct (supported_rate_iff d b rates dr' dr' Hg) as [_ H2].
    rewrite Hd in Hd'. injection Hd' as <-.
    rewrite H1, H2; [|tauto|tauto]. by rewrite H24, Hdr.
  - unfold RobotVoiceAgent.get_device_supported_rates in Hg. rewrite Hd in Hg. discriminate.
Qed.

(** [select_device] on success: the device is a candidate, it opens at
    the chosen rate, which is 24000 Hz or else its default rate (and then
    it does not open at 24000 Hz), and every candidate before it was
    passed over. *)
Lemma select_device_some (cands : list nat) (b : bool) (d : nat) (r : Z) :
  RobotVoiceAgent.select_device device_default_rate can_open cands b = Ok (Some (d, r)) ->
  exists pre post dr,
    cands = pre ++ d :: post /\ device_default_rate d = Ok dr /\
    can_open d b r = true /\
    (r = 24000%Z \/ (r = dr /\ can_open d b 24000%Z = false)) /\
    Forall (rejected b) pre.
Proof.
  induction cands as [|c cands IH]; cbn [RobotVoiceAgent.select_device]; [discriminate|].
  destruct (RobotVoiceAgent.get_device_supported_rates device_default_rate can_open c b)
    as [[rates dr]|e] eqn:Hg; [|discriminate].
  destruct (supported_rate_iff c b rates dr 24000 Hg) as [Hd H1].
  destruct (supported_rate_iff c b rates dr dr Hg) as [_ H2].
  rewrite H1, H2; [|tauto|tauto].
  destruct (can_open c b 24000%Z) eqn:H24; [|destruct (can_open c b dr) eqn:Hdr].
  - intros Heq. injection Heq as <- <-.
    exists [], cands, dr. split_and!; auto.
  - intros Heq. injection Heq as <- <-.
    exists [], cands, dr. split_and!; auto.
  - intros Hs. destruct (IH Hs) as (pre & post & dr' & -> & Hd' & Hco & Hr & Hpre).
    exists (c :: pre), post, dr'. split_and!; auto.
    constructor; [|done]. exists dr. auto.
Qed.

(** [find_best_audio_devices] on success selects an output device among
    0, 38, 33 and an input device among 33, 27, 0, each opening at its
    selected rate, which is 24000 Hz or else the device's default rate;
    24000 Hz is chosen whenever the selected device supports it, and the
    candidates tried before were passed over. When every output candidate
    is passed over it raises "No working audio output device found!". *)
Theorem find_best_audio_devices_spec :
  (forall od orate id irate,
    RobotVoiceAgent.find_best_audio_devices device_default_rate can_open
      = Ok ((od, orate), (id, irate)) ->
    (exists pre post dr,
       RobotVoiceAgent.output_candidates = pre ++ od :: post /\
       device_default_rate od = Ok dr /\ can_open od false orate = true /\
       (orate = 24000%Z \/ (orate = dr /\ can_open od false 24000%Z = false)) /\
       Forall (rejected false) pre) /\
    (exists pre post dr,
       RobotVoiceAgent.input_candidates = pre ++ id :: post /\
       device_default_rate id = Ok dr /\ can_open id true irate = true /\
       (irate = 24000%Z \/ (irate = dr /\ can_open id true 24000%Z = false)) /\
       Forall (rejected true) pre)) /\
  (Forall (rejected false) RobotVoiceAgent.output_candidates ->
   RobotVoiceAgent.find_best_audio_devices device_default_rate can_open
     = Raise (LibError "No working audio output device found!")).
Proof.
  unfold RobotVoiceAgent.find_best_audio_devices. split.
  - intros od orate id irate.
    destruct (RobotVoiceAgent.select_device _ _ RobotVoiceAgent.output_candidates false)
      as [[[od' orate']|]|e] eqn:Ho; try discriminate.
    destruct (RobotVoiceAgent.select_device _ _ RobotVoiceAgent.input_candidates true)
      as [[[id' irate']|]|e] eqn:Hi; try discriminate.
    intros Heq. injection Heq as <- <- <- <-.
    split; [exact (select_device_some _ _ _ _ Ho)|exact (select_device_some _ _ _ _ Hi)].
  - intros Hrej. by rewrite (select_device_none _ _ Hrej).
Qed.

End DeviceSelection.

Lemma move_robot_valid_direction_witness :
  exists x y r,
    RobotTools.move_robot (fun _ => 0%Z) [("direction", JStr "Left"); ("distance", JNum 2)] =
      (Ok r, [Cmd (Move x y 0);
              Sleep (2 * table_get RobotTools.duration_multipliers (str_lower "normal") 1)%Q;
              Cmd (Move 0 0 0)]) /\
    dict_get r "status" = Some (RobotTools.status_of 0%Z) /\
    (str_lower "Left" = "forward" -> 0 < x /\ y = 0)%Q /\
    (str_lower "Left" = "backward" -> x < 0 /\ y = 0)%Q /\
    (str_lower "Left" = "left" -> x = 0 /\ 0 < y)%Q /\
    (str_lower "Left" = "right" -> x = 0 /\ y < 0)%Q /\
    (str_lower "Left" = "stop" -> x = 0 /\ y = 0)%Q.
Proof.
  exact (move_robot_valid_direction (fun _ => 0%Z)
           [("direction", JStr "Left"); ("distance", JNum 2)] "Left" "normal" "normal" 2
           eq_refl eq_refl eq_refl eq_refl
           ltac:(apply (bool_decide_unpack _); vm_compute; exact I)
           ltac:(vm_compute; split; [discriminate|reflexivity])).
Defined.

Definition delta_without_audio : string -> res json :=
  fun _ => Ok (JObj [("type", JStr "response.audio.delta"); ("delta", JStr "AAAA")]).

Lemma receive_audio_skip_and_done_witness :
  RobotVoiceAgent.receive_audio delta_without_audio (fun _ => Ok []) 3 [] ["m1"; "m2"]%string
  = RobotVoiceAgent.receive_audio delta_without_audio (fun _ => Ok []) 0 [] ["m2"]%string.
Proof.
  refine (proj1 (receive_audio_skip_and_done delta_without_audio (fun _ => Ok []) 3 [] "m1"
            ["m2"]%string [("type", JStr "response.audio.delta"); ("delta", JStr "AAAA")]
            eq_refl) eq_refl _).
  intros s. discriminate.
Defined.

Lemma find_best_audio_devices_spec_witness :
  RobotVoiceAgent.find_best_audio_devices (fun _ => Ok 44100%Z) (fun _ _ _ => false)
  = Raise (LibError "No working audio output device found!").
Proof.
  apply (proj2 (find_best_audio_devices_spec (fun _ => Ok 44100%Z) (fun _ _ _ => false))).
  repeat constructor; eexists; split_and!; reflexivity.
Defined.
